(** * Event service (backend/app.py): a shallow embedding and its properties

    The Flask view functions of [backend/app.py] are embedded as programs of a
    state-and-exception monad over the Cosmos container they talk to.  The
    container state is explicit; every call made on the container is recorded,
    so that "no store operation was attempted" is a statement about the
    state.  Logging calls have no effect on responses or on the store and are
    left out. *)

From Stdlib Require Import ZArith String Ascii Decimal DecimalString DecimalPos.
From stdpp Require Import gmap strings list fin_maps.

#[local] Set Warnings "-register-all".
#[local] Open Scope string_scope.
#[local] Open Scope Z_scope.

(** ** Python values *)

(** What [request.get_json()] can return: a parsed JSON document, with Python's
    [None] for JSON [null] (and for a body that is not there).  Numbers are the
    integers; JSON numbers with a fraction are outside this model. *)
Inductive json : Type :=
| JNull
| JBool (b : bool)
| JNum (n : Z)
| JStr (s : string)
| JArr (l : list json)
| JObj (m : gmap string json).

(** Python truthiness, the meaning of [not v] and [if v]. *)
Definition truthy (v : json) : bool :=
  match v with
  | JNull => false
  | JBool b => b
  | JNum n => negb (n =? 0)
  | JStr s => negb (String.eqb s "")
  | JArr l => match l with [] => false | _ :: _ => true end
  | JObj m => negb (Nat.eqb (size m) 0)
  end.

(** Exceptions that the views can meet. [CosmosResourceExistsError] and
    [CosmosResourceNotFoundError] are subclasses of [CosmosHttpResponseError]
    in the SDK; the [except] clauses below are written in the source's order. *)
Inductive exn : Type :=
| CosmosResourceExistsError
| CosmosResourceNotFoundError
| CosmosHttpResponseError (status_code : Z)
| AttributeError
| KeyError
| TypeError.

(** ** [int(...)] and [str(...)] *)

(** Characters that [int] strips around a numeral (the ASCII ones). *)
Definition is_space (c : ascii) : bool :=
  let n := N_of_ascii c in
  ((9 <=? n)%N && (n <=? 13)%N) || ((28 <=? n)%N && (n <=? 32)%N).

Fixpoint lstrip (s : string) : string :=
  match s with
  | EmptyString => EmptyString
  | String c s' => if is_space c then lstrip s' else s
  end.

Fixpoint rstrip (s : string) : string :=
  match s with
  | EmptyString => EmptyString
  | String c s' =>
      match rstrip s' with
      | EmptyString => if is_space c then EmptyString else String c EmptyString
      | r => String c r
      end
  end.

Definition digit_of (c : ascii) : option Z :=
  let n := N_of_ascii c in
  if ((48 <=? n)%N && (n <=? 57)%N) then Some (Z.of_N n - 48) else None.

(** Decimal digits, a single underscore allowed between two digits.
    [seen] tells whether the previous character was a digit. *)
Fixpoint digits (acc : Z) (seen : bool) (s : string) : option Z :=
  match s with
  | EmptyString => if seen then Some acc else None
  | String c s' =>
      if Ascii.eqb c "_"%char then (if seen then digits acc false s' else None)
      else match digit_of c with
           | Some d => digits (10 * acc + d) true s'
           | None => None
           end
  end.

(** [int(s)] for a [str] of ASCII characters: [None] stands for
    [ValueError].  Digits of other scripts, and the limit that recent Pythons
    put on the length of a numeral, are outside this model. *)
Definition int_of_str (s : string) : option Z :=
  match rstrip (lstrip s) with
  | String "+"%char r => digits 0 false r
  | String "-"%char r => Z.opp <$> digits 0 false r
  | t => digits 0 false t
  end.

(** [int(v)]: [None] stands for [ValueError] or [TypeError], the two that
    [create_event] catches. *)
Definition py_int (v : json) : option Z :=
  match v with
  | JStr s => int_of_str s
  | JNum n => Some n
  | JBool b => Some (if b then 1 else 0)
  | JNull | JArr _ | JObj _ => None
  end.

(** [str(n)] for an [int]. *)
Definition py_str (n : Z) : string := NilZero.string_of_int (Z.to_int n).

(** The integer that a string of decimal digits denotes, read from the left
    with [acc] for the digits already read. *)
Fixpoint uint_value (acc : Z) (d : Decimal.uint) : Z :=
  match d with
  | Nil => acc
  | D0 d => uint_value (10 * acc + 0) d
  | D1 d => uint_value (10 * acc + 1) d
  | D2 d => uint_value (10 * acc + 2) d
  | D3 d => uint_value (10 * acc + 3) d
  | D4 d => uint_value (10 * acc + 4) d
  | D5 d => uint_value (10 * acc + 5) d
  | D6 d => uint_value (10 * acc + 6) d
  | D7 d => uint_value (10 * acc + 7) d
  | D8 d => uint_value (10 * acc + 8) d
  | D9 d => uint_value (10 * acc + 9) d
  end.

(** ** Events and the container *)

(** The dict literal that [create_event] and [update_event] build:
    [{"id": .., "name": .., "date": .., "description": ..}]. *)
Record Event : Type := mkEvent {
  ev_id : json;
  ev_name : json;
  ev_date : json;
  ev_description : json
}.

(** Calls made on the container, in the order they were made. *)
Inductive store_call : Type :=
| QueryItems
| CreateItem (body : Event)
| ReadAllItems
| ReadItem (item : string)
| ReplaceItem (item : json) (body : Event)
| DeleteItem (item : string).

Record cstate : Type := mkState {
  docs : gmap string Event;
  calls : list store_call
}.

(** State and exceptions. *)
Definition M (A : Type) : Type := cstate → (exn + A) * cstate.

#[global] Instance M_ret : MRet M := λ A a st, (inr a, st).
#[global] Instance M_bind : MBind M := λ A B f c st,
  match c st with
  | (inr a, st') => f a st'
  | (inl e, st') => (inl e, st')
  end.
#[global] Instance M_throw : MThrow exn M := λ A e st, (inl e, st).

(** [try: c  except ...: h e] *)
Definition try_except {A : Type} (c : M A) (h : exn → M A) : M A := λ st,
  match c st with
  | (inr a, st') => (inr a, st')
  | (inl e, st') => h e st'
  end.

Definition record (c : store_call) (st : cstate) : cstate :=
  mkState (docs st) (calls st ++ [c]).

(** The greatest string of a list in the order of [String.leb]. *)
Definition max_of (l : list string) : option string :=
  foldr (λ k acc, match acc with
                  | None => Some k
                  | Some a => Some (if String.leb a k then k else a)
                  end) None l.

(** The greatest key of a map. *)
Definition max_key (m : gmap string Event) : option string :=
  max_of (elements (dom m)).

(** The Cosmos container, the external document store: documents keyed by
    their string [id], which is also the partition key.  The store tells
    "already exists" and "not found" apart from its other failures, and
    refuses a document whose [id] is not a string.  [MAX(c.id)] is the
    store's aggregate over the ids, which are strings and are compared as
    strings. *)
Module container.

(** [list(container.query_items("SELECT VALUE MAX(c.id) FROM c", ...))] *)
Definition query_items : M (list json) := λ st,
  (inr match max_key (docs st) with
       | Some k => [JStr k]
       | None => []
       end, record QueryItems st).

Definition create_item (body : Event) : M Event := λ st,
  let st' := record (CreateItem body) st in
  match ev_id body with
  | JStr k =>
      match docs st !! k with
      | Some _ => (inl CosmosResourceExistsError, st')
      | None => (inr body, mkState (<[k := body]> (docs st)) (calls st'))
      end
  | _ => (inl (CosmosHttpResponseError 400), st')
  end.

Definition read_all_items : M (list Event) := λ st,
  (inr (map_to_list (docs st)).*2, record ReadAllItems st).

Definition read_item (item : string) : M Event := λ st,
  let st' := record (ReadItem item) st in
  match docs st !! item with
  | Some e => (inr e, st')
  | None => (inl CosmosResourceNotFoundError, st')
  end.

(** [replace_item(item=existing_item, body=...)]: the document addressed is
    the one with [existing_item]'s id; the body keeps that id. *)
Definition replace_item (item : json) (body : Event) : M Event := λ st,
  let st' := record (ReplaceItem item body) st in
  match item, ev_id body with
  | JStr k, JStr k' =>
      if String.eqb k k' then
        match docs st !! k with
        | Some _ => (inr body, mkState (<[k := body]> (docs st)) (calls st'))
        | None => (inl CosmosResourceNotFoundError, st')
        end
      else (inl (CosmosHttpResponseError 400), st')
  | _, _ => (inl (CosmosHttpResponseError 400), st')
  end.

Definition delete_item (item : string) : M unit := λ st,
  let st' := record (DeleteItem item) st in
  match docs st !! item with
  | Some _ => (inr tt, mkState (delete item (docs st)) (calls st'))
  | None => (inl CosmosResourceNotFoundError, st')
  end.

End container.

(** ** Dict access on the request body *)

(** [data.get(k)]: [None] when the key is absent; [AttributeError] when
    [data] is not a dict. *)
Definition dict_get (data : json) (k : string) : M json :=
  match data with
  | JObj m => mret (default JNull (m !! k))
  | _ => mthrow AttributeError
  end.

(** [data.get(k, d)] *)
Definition dict_get_default (data : json) (k : string) (d : json) : M json :=
  match data with
  | JObj m => mret (default d (m !! k))
  | _ => mthrow AttributeError
  end.

(** [data[k]] on a dict *)
Definition dict_item (data : json) (k : string) : M json :=
  match data with
  | JObj m => match m !! k with Some v => mret v | None => mthrow KeyError end
  | _ => mthrow TypeError
  end.

(** ** Responses *)

Inductive body : Type :=
| JsonEvent (e : Event)
| JsonEvents (l : list Event)
| JsonError (msg : string)
| NoBody.

(** A view returns [(body, status)]. *)
Definition response : Type := body * Z.

(** [@app.errorhandler(Exception)] *)
Definition handle_exception (e : exn) : response :=
  (JsonError "Internal server error", 500).

(** ** The views *)

(** [not data or not data.get("name") or not data.get("date")
     or not data.get("description")], evaluated left to right. *)
Definition missing_fields (data : json) : M bool :=
  if negb (truthy data) then mret true else
  n ← dict_get data "name";
  if negb (truthy n) then mret true else
  d ← dict_get data "date";
  if negb (truthy d) then mret true else
  s ← dict_get data "description";
  mret (negb (truthy s)).

(** The id that a create without a usable [id] gets. *)
Definition next_event_id : M json :=
  max_id_result ← container.query_items;
  let current_max_id :=
    match max_id_result with
    | JNull :: _ => 0
    | v :: _ => default 0 (py_int v)
    | [] => 0
    end in
  mret (JStr (py_str (current_max_id + 1))).

Definition create_event (data : json) : M response :=
  missing ← missing_fields data;
  if (missing : bool) then
    mret (JsonError "Missing required fields: name, date, description", 400)
  else
    event_id ← dict_get data "id";
    event_id ← (if negb (truthy event_id) then next_event_id else mret event_id);
    name ← dict_item data "name";
    date ← dict_item data "date";
    description ← dict_item data "description";
    let event_item := mkEvent event_id name date description in
    try_except
      (created_item ← container.create_item event_item;
       mret (JsonEvent created_item, 201))
      (λ e, match e with
            | CosmosResourceExistsError =>
                mret (JsonError "Event with this ID already exists", 409)
            | CosmosHttpResponseError status_code =>
                if status_code =? 409
                then mret (JsonError "Event with this ID already exists", 409)
                else mret (JsonError "Database error", 500)
            | CosmosResourceNotFoundError =>
                mret (JsonError "Database error", 500)
            | _ => mret (JsonError "Internal server error", 500)
            end).

Definition get_events : M response :=
  try_except
    (events ← container.read_all_items;
     mret (JsonEvents events, 200))
    (λ _, mret (JsonError "Internal server error", 500)).

Definition get_event (event_id : string) : M response :=
  try_except
    (event_item ← container.read_item event_id;
     mret (JsonEvent event_item, 200))
    (λ e, match e with
          | CosmosResourceNotFoundError => mret (JsonError "Event not found", 404)
          | _ => mret (JsonError "Internal server error", 500)
          end).

Definition update_event (event_id : string) (data : json) : M response :=
  if negb (truthy data) then
    mret (JsonError "Request body is missing", 400)
  else
    try_except
      (existing_item ← container.read_item event_id;
       name ← dict_get_default data "name" (ev_name existing_item);
       date ← dict_get_default data "date" (ev_date existing_item);
       description ← dict_get_default data "description"
                       (ev_description existing_item);
       let updated_item_data :=
         mkEvent (ev_id existing_item) name date description in
       updated_item ← container.replace_item (ev_id existing_item)
                        updated_item_data;
       mret (JsonEvent updated_item, 200))
      (λ e, match e with
            | CosmosResourceNotFoundError => mret (JsonError "Event not found", 404)
            | _ => mret (JsonError "Internal server error", 500)
            end).

Definition delete_event (event_id : string) : M response :=
  try_except
    (_ ← container.delete_item event_id;
     mret (NoBody, 204))
    (λ e, match e with
          | CosmosResourceNotFoundError => mret (JsonError "Event not found", 404)
          | _ => mret (JsonError "Internal server error", 500)
          end).

(** Flask runs a view and hands an exception that escapes it to
    [handle_exception]. *)
Definition serve (view : M response) (st : cstate) : response * cstate :=
  match view st with
  | (inr r, st') => (r, st')
  | (inl e, st') => (handle_exception e, st')
  end.

(** The store after a request was served. *)
Definition store_of (r : response * cstate) : gmap string Event := docs r.2.

(** ** Vocabulary of the properties *)

(** A field is missing or empty: it is absent, or its value is one that
    Python's [not] rejects (the empty string, [null], an empty list or
    object, [0], [false]). *)
Definition missing_or_empty (m : gmap string json) (k : string) : Prop :=
  match m !! k with
  | None => True
  | Some v => truthy v = false
  end.

Definition present (m : gmap string json) (k : string) : bool :=
  truthy (default JNull (m !! k)).

(** The three required fields are there and not empty. *)
Definition valid_payload (m : gmap string json) : bool :=
  present m "name" && present m "date" && present m "description".

(** [current_max_id] after the scan in [create_event]. *)
Definition current_max_id (d : gmap string Event) : Z :=
  match max_key d with
  | Some k => default 0 (int_of_str k)
  | None => 0
  end.

(** The id a create uses: the payload's when it is truthy, else the next one. *)
Definition assigned_id (m : gmap string json) (d : gmap string Event) : json :=
  if truthy (default JNull (m !! "id")) then default JNull (m !! "id")
  else JStr (py_str (current_max_id d + 1)).

Definition event_of_payload (m : gmap string json) (d : gmap string Event)
  : Event :=
  mkEvent (assigned_id m d)
          (default JNull (m !! "name"))
          (default JNull (m !! "date"))
          (default JNull (m !! "description")).

(** The container once the id has been chosen. *)
Definition after_scan (m : gmap string json) (st : cstate) : cstate :=
  if truthy (default JNull (m !! "id")) then st else record QueryItems st.

(** Every document is filed under its own id, and no id is empty. *)
Definition store_ok (d : gmap string Event) : Prop :=
  d !! "" = None ∧ ∀ k e, d !! k = Some e → ev_id e = JStr k.

(** The record that [update_event] writes back. *)
Definition merged (m : gmap string json) (e : Event) : Event :=
  mkEvent (ev_id e)
          (default (ev_name e) (m !! "name"))
          (default (ev_date e) (m !! "date"))
          (default (ev_description e) (m !! "description")).

(** The data model's requirement on a stored event. *)
Definition event_ok (e : Event) : bool :=
  truthy (ev_name e) && truthy (ev_date e) && truthy (ev_description e).

Definition events_ok (d : gmap string Event) : Prop :=
  map_Forall (λ _ e, event_ok e = true) d.

(** [{"name":"Demo","date":"2024-01-01","description":"d"}] *)
Definition demo_fields : gmap string json :=
  {[ "name" := JStr "Demo"; "date" := JStr "2024-01-01";
     "description" := JStr "d" ]}.
Definition demo : json := JObj demo_fields.

Definition demo_event (k : string) : Event :=
  mkEvent (JStr k) (JStr "Demo") (JStr "2024-01-01") (JStr "d").

(** The empty container. *)
Definition st0 : cstate := mkState ∅ [].

(** The container after [n] creates of the demo payload. *)
Definition after_creates (n : nat) : cstate :=
  Nat.iter n (λ st, (serve (create_event demo) st).2) st0.

(** The rule as the specification words it: one more than the greatest of
    the stored ids that parse as integers, from 0 when there is none. *)
Definition max_numeric_id (d : gmap string Event) : option Z :=
  foldr (λ k acc, match int_of_str k, acc with
                  | Some n, Some a => Some (Z.max a n)
                  | Some n, None => Some n
                  | None, _ => acc
                  end) None (elements (dom d)).

Definition spec_next_id (d : gmap string Event) : string :=
  py_str (default 0 (max_numeric_id d) + 1).

(** ** Requests *)

(** The routes of the application: [POST /events], [GET /events],
    [GET /events/<event_id>], [PUT /events/<event_id>] and
    [DELETE /events/<event_id>], each with what the view reads from the
    request. *)
Inductive request : Type :=
| POST_events (data : json)
| GET_events
| GET_event (event_id : string)
| PUT_event (event_id : string) (data : json)
| DELETE_event (event_id : string).

(** The view that [@app.route] binds to a request. *)
Definition route (r : request) : M response :=
  match r with
  | POST_events data => create_event data
  | GET_events => get_events
  | GET_event event_id => get_event event_id
  | PUT_event event_id data => update_event event_id data
  | DELETE_event event_id => delete_event event_id
  end.

Definition handle (r : request) (st : cstate) : response * cstate :=
  serve (route r) st.

(** The container after a sequence of requests, served one after another, each to its
    end before the next. *)
Definition run (rs : list request) (st : cstate) : cstate :=
  foldl (λ st r, (handle r st).2) st rs.

(** A 2xx status. *)
Definition is_success (r : response) : bool :=
  (200 <=? r.2) && (r.2 <? 300).

(** The values that a payload gives for [name], [date] and [description]
    are all truthy. *)
Definition payload_fields_ok (m : gmap string json) : Prop :=
  ∀ k v, k = "name" ∨ k = "date" ∨ k = "description" →
         m !! k = Some v → truthy v = true.

(** A request gives no empty value to a stored field: this constrains the
    updates only, whose payload is stored unchecked. *)
Definition request_fields_ok (r : request) : Prop :=
  match r with
  | PUT_event _ (JObj m) => payload_fields_ok m
  | _ => True
  end.

(** ** Reasoning about the monad *)

Ltac unfold_m :=
  unfold mbind, M_bind, mret, M_ret, mthrow, M_throw, try_except in *.

(** A create whose body is not an object: [null], [false], [0], the empty
    string or list fail the first test; any other body has no [get]. *)
Ltac not_an_object :=
  unfold create_event, missing_fields, dict_get; unfold_m;
  destruct (truthy _); cbn.

Lemma bind_ok {A B : Type} (c : M A) (f : A → M B) st a st' :
  c st = (inr a, st') → (c ≫= f) st = f a st'.
Proof. intros H. unfold_m. by rewrite H. Qed.

Lemma bind_raise {A B : Type} (c : M A) (f : A → M B) st e st' :
  c st = (inl e, st') → (c ≫= f) st = (inl e, st').
Proof. intros H. unfold_m. by rewrite H. Qed.

Lemma truthy_obj (m : gmap string json) :
  truthy (JObj m) = false ↔ m = ∅.
Proof.
  simpl. rewrite negb_false_iff, Nat.eqb_eq. apply map_size_empty_iff.
Qed.

(** ** [int] reads what [str] writes *)

Lemma digits_string_of_uint d : ∀ acc seen,
  d ≠ Nil ∨ seen = true →
  digits acc seen (NilEmpty.string_of_uint d) = Some (uint_value acc d).
Proof.
  induction d; intros acc seen H;
    try (cbn -[Z.mul Z.add]; apply IHd; by right).
  destruct H as [H| ->]; [done|reflexivity].
Qed.

Lemma uint_value_pos d :
  ∀ p, uint_value (Z.pos p) d = Z.pos (Pos.of_uint_acc d p).
Proof.
  induction d; intros p; cbn -[Z.mul Z.add Pos.mul Pos.add]; [done|..];
    rewrite <- IHd; f_equal; lia.
Qed.

Lemma uint_value_0 d : uint_value 0 d = Z.of_N (Pos.of_uint d).
Proof.
  induction d; cbn -[Pos.of_uint_acc]; [done|done|..];
    apply (uint_value_pos d).
Qed.

Lemma rstrip_string_of_uint d :
  rstrip (NilEmpty.string_of_uint d) = NilEmpty.string_of_uint d.
Proof.
  induction d; [done|..]; cbn [NilEmpty.string_of_uint rstrip]; rewrite IHd;
    destruct (NilEmpty.string_of_uint d); reflexivity.
Qed.

Lemma int_of_str_uint d :
  d ≠ Nil →
  int_of_str (NilEmpty.string_of_uint d) = Some (Z.of_N (Pos.of_uint d)).
Proof.
  intros Hd. unfold int_of_str.
  assert (Hl : lstrip (NilEmpty.string_of_uint d) = NilEmpty.string_of_uint d)
    by (by destruct d).
  rewrite Hl, rstrip_string_of_uint, <- uint_value_0.
  rewrite <- (digits_string_of_uint d 0 false) by by left.
  by destruct d.
Qed.

Lemma nilzero_string_of_pos p :
  NilZero.string_of_uint (Pos.to_uint p)
    = NilEmpty.string_of_uint (Pos.to_uint p).
Proof.
  pose proof (Unsigned.to_uint_nonnil p). by destruct (Pos.to_uint p).
Qed.

(** [int(str(n)) == n] *)
Lemma int_of_str_py_str n : int_of_str (py_str n) = Some n.
Proof.
  unfold py_str. destruct n as [|p|p]; [reflexivity|..];
    cbn [Z.to_int NilZero.string_of_int]; rewrite nilzero_string_of_pos;
    pose proof (Unsigned.to_uint_nonnil p) as Hp.
  - rewrite int_of_str_uint by done. by rewrite Unsigned.of_to.
  - unfold int_of_str. cbn [lstrip].
    replace (is_space "-") with false by reflexivity.
    cbn [rstrip]. rewrite rstrip_string_of_uint.
    destruct (NilEmpty.string_of_uint (Pos.to_uint p)) eqn:E.
    + by destruct (Pos.to_uint p).
    + rewrite <- E. rewrite digits_string_of_uint by by left.
      rewrite uint_value_0, Unsigned.of_to. reflexivity.
Qed.

(** ** Validation of a create payload *)

Lemma missing_or_empty_present m k :
  missing_or_empty m k ↔ present m k = false.
Proof.
  unfold missing_or_empty, present. destruct (m !! k); simpl; intuition.
Qed.

Lemma present_lookup m k :
  present m k = true → ∃ v, m !! k = Some v ∧ truthy v = true.
Proof.
  unfold present. destruct (m !! k) as [v|]; simpl; [eauto | discriminate].
Qed.

Lemma valid_payload_truthy m : valid_payload m = true → truthy (JObj m) = true.
Proof.
  intros H. destruct (truthy (JObj m)) eqn:E; [done|].
  apply truthy_obj in E. subst m. unfold valid_payload, present in H.
  by rewrite lookup_empty in H.
Qed.

Lemma missing_fields_obj m st :
  missing_fields (JObj m) st = (inr (negb (valid_payload m)), st).
Proof.
  unfold missing_fields, valid_payload.
  destruct (truthy (JObj m)) eqn:Et; cbn [negb].
  - unfold dict_get, present. unfold_m.
    destruct (truthy (default JNull (m !! "name"))); cbn [negb andb]; [|done].
    destruct (truthy (default JNull (m !! "date"))); cbn [negb andb]; done.
  - apply truthy_obj in Et. subst m. unfold present.
    rewrite !lookup_empty. reflexivity.
Qed.

(** ** Claim C3 *)

(** C3. A create whose payload object lacks one of [name], [date],
    [description], or has it empty, is answered 400 with the
    missing-fields error, and the container is left exactly as it was: its
    documents are the same and no call was made on it. *)
Theorem create_event_missing_field_400 (m : gmap string json) (k : string)
    (st : cstate) :
  k = "name" ∨ k = "date" ∨ k = "description" →
  missing_or_empty m k →
  serve (create_event (JObj m)) st =
    ((JsonError "Missing required fields: name, date, description", 400), st).
Proof.
  intros Hk Hm. apply missing_or_empty_present in Hm.
  assert (Hv : valid_payload m = false).
  { unfold valid_payload.
    destruct Hk as [->|[->| ->]]; rewrite Hm;
      rewrite ?andb_false_r; reflexivity. }
  unfold serve, create_event.
  rewrite (bind_ok _ _ _ _ _ (missing_fields_obj m st)), Hv. reflexivity.
Qed.

(** A body that is truthy and not an object reaches [data.get] and is
    answered 500 by the application's error handler; a falsy one is answered
    400.  Either way the container is not called. *)
Lemma create_event_not_an_object data st :
  (∀ m, data ≠ JObj m) →
  serve (create_event data) st =
    (if truthy data
     then (JsonError "Internal server error", 500)
     else (JsonError "Missing required fields: name, date, description", 400),
     st).
Proof.
  intros H. unfold serve.
  destruct data as [|b|n|s|l|m]; try (not_an_object; reflexivity).
  by destruct (H m).
Qed.

(** ** What a valid create does *)

Lemma next_event_id_eq st :
  next_event_id st =
    (inr (JStr (py_str (current_max_id (docs st) + 1))), record QueryItems st).
Proof.
  unfold next_event_id, container.query_items, current_max_id. unfold_m.
  destruct (max_key (docs st)); reflexivity.
Qed.

Lemma create_event_valid m st :
  valid_payload m = true →
  create_event (JObj m) st =
    let ev := event_of_payload m (docs st) in
    let st1 := record (CreateItem ev) (after_scan m st) in
    match assigned_id m (docs st) with
    | JStr k =>
        match docs st !! k with
        | Some _ =>
            (inr (JsonError "Event with this ID already exists", 409), st1)
        | None =>
            (inr (JsonEvent ev, 201),
             mkState (<[k := ev]> (docs st)) (calls st1))
        end
    | _ => (inr (JsonError "Database error", 500), st1)
    end.
Proof.
  intros Hv. unfold create_event.
  rewrite (bind_ok _ _ _ _ _ (missing_fields_obj m st)), Hv. cbn [negb].
  unfold valid_payload in Hv. apply andb_true_iff in Hv as [Hv Hs].
  apply andb_true_iff in Hv as [Hn Hd].
  apply present_lookup in Hn as (n & En & _).
  apply present_lookup in Hd as (d & Ed & _).
  apply present_lookup in Hs as (s & Es & _).
  unfold event_of_payload, assigned_id, after_scan.
  rewrite En, Ed, Es. cbn [from_option id].
  unfold dict_get, dict_item. rewrite En, Ed, Es.
  destruct (truthy (default JNull (m !! "id"))) eqn:Et.
  - unfold_m. cbn [negb]. rewrite Et. cbn [negb].
    unfold container.create_item. cbn [ev_id].
    destruct (default JNull (m !! "id")) as [| | |k| |]; try reflexivity.
    cbn [docs record]. destruct (docs st !! k); reflexivity.
  - unfold_m. rewrite Et. cbn [negb]. rewrite next_event_id_eq.
    unfold container.create_item. cbn [ev_id docs record].
    destruct (docs st !! _); reflexivity.
Qed.

(** ** The shape of the store *)

Lemma py_str_nonempty n : py_str n ≠ "".
Proof.
  unfold py_str. destruct n as [|p|p]; simpl; [done| |done].
  pose proof (DecimalPos.Unsigned.to_uint_nonnil p) as Hp.
  destruct (Pos.to_uint p); [done|..]; done.
Qed.

Lemma truthy_str s : truthy (JStr s) = true ↔ s ≠ "".
Proof.
  simpl. rewrite negb_true_iff. split.
  - intros H ->. by rewrite String.eqb_refl in H.
  - intros H. by apply String.eqb_neq.
Qed.

Lemma assigned_id_nonempty m d : assigned_id m d ≠ JStr "".
Proof.
  unfold assigned_id. destruct (truthy (default JNull (m !! "id"))) eqn:Et.
  - intros E. rewrite E in Et. done.
  - intros [= E]. by apply py_str_nonempty in E.
Qed.

Lemma store_ok_empty : store_ok ∅.
Proof. split; [apply lookup_empty|]. intros k e. by rewrite lookup_empty. Qed.

Lemma store_ok_insert d k e :
  store_ok d → k ≠ "" → ev_id e = JStr k → store_ok (<[k := e]> d).
Proof.
  intros [H0 Hd] Hk He. split.
  - by rewrite lookup_insert_ne.
  - intros k' e'. rewrite lookup_insert. case_decide; [|by apply Hd].
    intros [= <-]. by subst k'.
Qed.

Lemma store_ok_delete d k : store_ok d → store_ok (delete k d).
Proof.
  intros [H0 Hd]. split.
  - rewrite lookup_delete. by case_decide.
  - intros k' e'. rewrite lookup_delete. case_decide; [done|]. apply Hd.
Qed.

Lemma create_event_store_ok data st :
  store_ok (docs st) → store_ok (store_of (serve (create_event data) st)).
Proof.
  intros Hok. unfold store_of, serve.
  destruct data as [|b|n|s|l|m];
    try (not_an_object; assumption).
  destruct (valid_payload m) eqn:Hv.
  - rewrite create_event_valid by done. cbv zeta.
    pose proof (assigned_id_nonempty m (docs st)) as Hne.
    destruct (assigned_id m (docs st)) as [| | |k| |] eqn:Ea;
      try (unfold after_scan; destruct (truthy _); cbn; assumption).
    destruct (docs st !! k) eqn:Ek.
    + unfold after_scan; destruct (truthy _); cbn; assumption.
    + cbn. apply store_ok_insert; [done|congruence|].
      unfold event_of_payload. cbn. done.
  - unfold create_event.
    rewrite (bind_ok _ _ _ _ _ (missing_fields_obj m st)), Hv. cbn. done.
Qed.

(** ** Reading, updating and deleting *)

Lemma get_event_found event_id st e :
  docs st !! event_id = Some e →
  get_event event_id st = (inr (JsonEvent e, 200), record (ReadItem event_id) st).
Proof.
  intros H. unfold get_event, container.read_item. unfold_m. by rewrite H.
Qed.

Lemma get_event_absent event_id st :
  docs st !! event_id = None →
  get_event event_id st =
    (inr (JsonError "Event not found", 404), record (ReadItem event_id) st).
Proof.
  intros H. unfold get_event, container.read_item. unfold_m. by rewrite H.
Qed.

Lemma delete_event_found event_id st e :
  docs st !! event_id = Some e →
  delete_event event_id st =
    (inr (NoBody, 204),
     mkState (delete event_id (docs st)) (calls st ++ [DeleteItem event_id])).
Proof.
  intros H. unfold delete_event, container.delete_item. unfold_m.
  by rewrite H.
Qed.

Lemma delete_event_absent event_id st :
  docs st !! event_id = None →
  delete_event event_id st =
    (inr (JsonError "Event not found", 404), record (DeleteItem event_id) st).
Proof.
  intros H. unfold delete_event, container.delete_item. unfold_m.
  by rewrite H.
Qed.

Lemma update_event_absent event_id data st :
  truthy data = true →
  docs st !! event_id = None →
  update_event event_id data st =
    (inr (JsonError "Event not found", 404), record (ReadItem event_id) st).
Proof.
  intros Ht H. unfold update_event, container.read_item. rewrite Ht.
  unfold_m. cbn [negb]. by rewrite H.
Qed.

Lemma update_event_found event_id m st e :
  truthy (JObj m) = true →
  docs st !! event_id = Some e →
  ev_id e = JStr event_id →
  update_event event_id (JObj m) st =
    (inr (JsonEvent (merged m e), 200),
     mkState (<[event_id := merged m e]> (docs st))
             (calls st ++ [ReadItem event_id]
                       ++ [ReplaceItem (JStr event_id) (merged m e)])).
Proof.
  intros Ht H Hid.
  unfold update_event, container.read_item, container.replace_item,
    dict_get_default.
  rewrite Ht. unfold_m. cbn [negb]. rewrite H, Hid.
  cbn [ev_id record docs calls]. rewrite String.eqb_refl, H.
  unfold merged. rewrite Hid, <- app_assoc. reflexivity.
Qed.

Lemma update_event_store_ok event_id data st :
  store_ok (docs st) → store_ok (store_of (serve (update_event event_id data) st)).
Proof.
  intros Hok. unfold store_of, serve.
  destruct (truthy data) eqn:Ht.
  2:{ unfold update_event. rewrite Ht. cbn. done. }
  destruct (docs st !! event_id) as [e|] eqn:He.
  2:{ rewrite update_event_absent by done. cbn. done. }
  pose proof (proj2 Hok _ _ He) as Hid.
  destruct data as [|b|n|s|l|m];
    try (unfold update_event, container.read_item; rewrite Ht; unfold_m;
         cbn [negb]; rewrite He; cbn; done).
  rewrite (update_event_found _ _ _ e) by done. cbn.
  apply store_ok_insert; [done| |done].
  intros ->. destruct Hok as [H0 _]. congruence.
Qed.

Lemma delete_event_store_ok event_id st :
  store_ok (docs st) → store_ok (store_of (serve (delete_event event_id) st)).
Proof.
  intros Hok. unfold store_of, serve.
  destruct (docs st !! event_id) as [e|] eqn:He.
  - rewrite (delete_event_found _ _ e) by done. cbn. by apply store_ok_delete.
  - rewrite delete_event_absent by done. cbn. done.
Qed.

Lemma get_event_store event_id st :
  store_of (serve (get_event event_id) st) = docs st.
Proof.
  unfold store_of, serve. destruct (docs st !! event_id) as [e|] eqn:He.
  - by rewrite (get_event_found _ _ e).
  - by rewrite get_event_absent.
Qed.

Lemma get_events_store st : store_of (serve get_events st) = docs st.
Proof. reflexivity. Qed.

(** ** Claims C4, C9, C10: creating with and without an id *)

(** C4. A create that names, in [id], a document already in the store is
    answered 409 as soon as its required fields pass validation (400
    otherwise), and in either case the store keeps the documents it had, the
    one with that id included. *)
Theorem create_event_existing_id_409 (m : gmap string json) (s : string)
    (e : Event) (st : cstate) :
  store_ok (docs st) →
  m !! "id" = Some (JStr s) →
  docs st !! s = Some e →
  (serve (create_event (JObj m)) st).1 =
    (if valid_payload m
     then (JsonError "Event with this ID already exists", 409)
     else (JsonError "Missing required fields: name, date, description", 400))
  ∧ store_of (serve (create_event (JObj m)) st) = docs st
  ∧ store_of (serve (create_event (JObj m)) st) !! s = Some e.
Proof.
  intros [H0 _] Hid He.
  assert (Hs : truthy (JStr s) = true).
  { apply truthy_str. intros ->. congruence. }
  unfold store_of, serve. destruct (valid_payload m) eqn:Hv.
  - rewrite create_event_valid by done. cbv zeta.
    unfold assigned_id. rewrite Hid. cbn [from_option id]. rewrite Hs, He.
    cbn. unfold after_scan. rewrite Hid. cbn [from_option id]. rewrite Hs. done.
  - unfold create_event.
    rewrite (bind_ok _ _ _ _ _ (missing_fields_obj m st)), Hv. cbn. done.
Qed.

(** C9. When a create is answered 201 with a record, the record carries a
    string id, and a get of that id right afterwards is answered 200 with the
    same record. *)
Theorem create_then_get_roundtrip (data : json) (st : cstate) (e : Event) :
  (serve (create_event data) st).1 = (JsonEvent e, 201) →
  ∃ k, ev_id e = JStr k
     ∧ (serve (get_event k) (serve (create_event data) st).2).1
       = (JsonEvent e, 200).
Proof.
  unfold serve at 1 3.
  destruct data as [|b|n|s|l|m];
    try (not_an_object; discriminate).
  destruct (valid_payload m) eqn:Hv.
  - rewrite create_event_valid by done. cbv zeta.
    destruct (assigned_id m (docs st)) as [| | |k| |] eqn:Ea;
      try (cbn; discriminate).
    destruct (docs st !! k) eqn:Ek; [cbn; discriminate|].
    cbn [fst snd]. intros [= <-]. exists k. split.
    + unfold event_of_payload. by rewrite Ea.
    + unfold serve. erewrite get_event_found; [done|].
      cbn [docs]. apply lookup_insert_eq.
  - unfold create_event.
    rewrite (bind_ok _ _ _ _ _ (missing_fields_obj m st)), Hv. cbn. discriminate.
Qed.




(** ** Claims C2, C5, C6, C8: update, get and delete *)

(** C2. An update whose body is the empty object is answered 400 "Request
    body is missing", whatever the id, and nothing is read or written: the
    empty object is turned away by the same test as an absent body. *)
Theorem update_event_empty_object_400 (event_id : string) (st : cstate) :
  serve (update_event event_id (JObj ∅)) st
    = ((JsonError "Request body is missing", 400), st)
  ∧ serve (update_event event_id JNull) st
    = ((JsonError "Request body is missing", 400), st).
Proof. split; reflexivity. Qed.

(** C5. An update of a stored id with a non-empty payload object is answered
    200 with the merged record, which is what the store then holds under that
    id: the id is the old one, and [name], [date], [description] each come
    from the payload when it has the key and from the old record otherwise.
    The other documents are untouched. *)
Theorem update_event_merges (event_id : string) (m : gmap string json)
    (e : Event) (st : cstate) :
  store_ok (docs st) →
  docs st !! event_id = Some e →
  truthy (JObj m) = true →
  ∃ e',
    (serve (update_event event_id (JObj m)) st).1 = (JsonEvent e', 200)
    ∧ store_of (serve (update_event event_id (JObj m)) st) !! event_id = Some e'
    ∧ ev_id e' = ev_id e
    ∧ ev_name e' = default (ev_name e) (m !! "name")
    ∧ ev_date e' = default (ev_date e) (m !! "date")
    ∧ ev_description e' = default (ev_description e) (m !! "description")
    ∧ ∀ k, k ≠ event_id →
        store_of (serve (update_event event_id (JObj m)) st) !! k = docs st !! k.
Proof.
  intros [_ Hid] He Ht. exists (merged m e).
  unfold store_of, serve. rewrite (update_event_found _ _ _ e) by auto.
  cbn [fst snd docs]. rewrite lookup_insert_eq.
  repeat split; try reflexivity.
  intros k Hk. by rewrite lookup_insert_ne.
Qed.

(** C6. For an id that the store does not hold, get, update (with a
    non-empty payload) and delete are each answered 404 "Event not found",
    and the store keeps its documents. *)
Theorem absent_id_404 (event_id : string) (data : json) (st : cstate) :
  docs st !! event_id = None →
  truthy data = true →
  (serve (get_event event_id) st).1 = (JsonError "Event not found", 404)
  ∧ (serve (update_event event_id data) st).1
    = (JsonError "Event not found", 404)
  ∧ (serve (delete_event event_id) st).1 = (JsonError "Event not found", 404)
  ∧ store_of (serve (update_event event_id data) st) = docs st
  ∧ store_of (serve (delete_event event_id) st) = docs st.
Proof.
  intros He Ht. unfold store_of, serve.
  rewrite get_event_absent, update_event_absent, delete_event_absent by done.
  done.
Qed.

(** C8. When a delete is answered 204 with no body, a get of the same id on
    the resulting store is answered 404, and so is a second delete. *)
Theorem delete_then_get_404 (event_id : string) (st : cstate) :
  (serve (delete_event event_id) st).1 = (NoBody, 204) →
  (serve (get_event event_id) (serve (delete_event event_id) st).2).1
    = (JsonError "Event not found", 404)
  ∧ (serve (delete_event event_id) (serve (delete_event event_id) st).2).1
    = (JsonError "Event not found", 404).
Proof.
  unfold serve at 1 3 5.
  destruct (docs st !! event_id) as [e|] eqn:He.
  - rewrite (delete_event_found _ _ e) by done. intros _. cbn [snd].
    unfold serve.
    rewrite get_event_absent, delete_event_absent
      by (cbn [docs]; apply lookup_delete_eq).
    done.
  - rewrite delete_event_absent by done. cbn. discriminate.
Qed.

(** A delete is answered 204 exactly when the store holds the id. *)
Lemma delete_event_204_iff event_id st :
  (serve (delete_event event_id) st).1 = (NoBody, 204)
  ↔ is_Some (docs st !! event_id).
Proof.
  unfold serve. destruct (docs st !! event_id) as [e|] eqn:He.
  - rewrite (delete_event_found _ _ e) by done. split; eauto.
  - rewrite delete_event_absent by done. cbn. split; [discriminate|].
    by intros [? ?].
Qed.

(** ** The greatest id *)

Lemma string_leb_refl s : String.leb s s = true.
Proof.
  destruct (String.leb_total s s); assumption.
Qed.

Lemma string_leb_trans s1 s2 s3 :
  String.leb s1 s2 = true → String.leb s2 s3 = true → String.leb s1 s3 = true.
Proof.
  unfold String.leb. revert s2 s3.
  induction s1 as [|a s1 IH]; intros [|b s2] [|c s3]; simpl; try done.
  destruct (Ascii.compare a b) eqn:Eab; try done;
    destruct (Ascii.compare b c) eqn:Ebc; try done.
  - apply Ascii.compare_eq_iff in Eab, Ebc. subst.
    rewrite (proj2 (N.compare_eq_iff _ _) eq_refl : Ascii.compare c c = Eq).
    apply IH.
  - apply Ascii.compare_eq_iff in Eab. subst. by rewrite Ebc.
  - apply Ascii.compare_eq_iff in Ebc. subst. by rewrite Eab.
  - intros _ _.
    assert (H : Ascii.compare a c = Lt).
    { unfold Ascii.compare in *. rewrite N.compare_lt_iff in *.
      etrans; eassumption. }
    by rewrite H.
Qed.

Lemma max_of_spec l k :
  max_of l = Some k → k ∈ l ∧ ∀ k', k' ∈ l → String.leb k' k = true.
Proof.
  revert k. induction l as [|x l IH]; intros k; simpl; [done|].
  destruct (max_of l) as [a|] eqn:Ea.
  - destruct (IH a eq_refl) as [Hin Hmax].
    destruct (String.leb a x) eqn:Eax; intros [= <-].
    + split; [left|]. intros k' [E|Hk']%elem_of_cons.
      * subst k'. apply string_leb_refl.
      * eapply string_leb_trans; [by apply Hmax|done].
    + split; [by right|]. intros k' [E|Hk']%elem_of_cons.
      * subst k'. destruct (String.leb_total a x); congruence.
      * by apply Hmax.
  - intros [= <-]. destruct l; [|simpl in Ea; destruct (max_of l); done].
    split; [left|]. intros k' [E|Hk']%elem_of_cons.
    + subst k'. apply string_leb_refl.
    + by apply elem_of_nil in Hk'.
Qed.

Lemma max_of_None l : max_of l = None ↔ l = [].
Proof.
  destruct l as [|x l]; simpl; [done|]. destruct (max_of l); split; done.
Qed.

(** The scan of an empty store finds nothing. *)
Lemma max_key_None (d : gmap string Event) : max_key d = None ↔ d = ∅.
Proof.
  unfold max_key. rewrite max_of_None.
  rewrite elements_empty_iff. split.
  - intros H. apply dom_empty_iff_L. by apply leibniz_equiv.
  - intros ->. by rewrite dom_empty_L.
Qed.

(** The scan of a non-empty store finds the id that is greatest as a
    string. *)
Lemma max_key_Some (d : gmap string Event) k :
  max_key d = Some k →
  is_Some (d !! k) ∧ ∀ k', is_Some (d !! k') → String.leb k' k = true.
Proof.
  unfold max_key.
  intros [Hin Hmax]%max_of_spec. split.
  - apply elem_of_dom. by apply elem_of_elements.
  - intros k' Hk'. apply Hmax. apply elem_of_elements. by apply elem_of_dom.
Qed.

Lemma current_max_id_empty : current_max_id ∅ = 0.
Proof. reflexivity. Qed.

(** ** Non-empty fields *)

(** [create_event] keeps the requirement: what it stores passed validation. *)
Lemma create_event_events_ok data st :
  events_ok (docs st) → events_ok (store_of (serve (create_event data) st)).
Proof.
  intros Hok. unfold store_of, serve.
  destruct data as [|b|n|s|l|m];
    try (not_an_object; assumption).
  destruct (valid_payload m) eqn:Hv.
  - rewrite create_event_valid by done. cbv zeta.
    destruct (assigned_id m (docs st)) as [| | |k| |] eqn:Ea;
      try (unfold after_scan; destruct (truthy _); cbn; assumption).
    destruct (docs st !! k) eqn:Ek.
    + unfold after_scan; destruct (truthy _); cbn; assumption.
    + cbn. apply map_Forall_insert_2; [|done]. exact Hv.
  - unfold create_event.
    rewrite (bind_ok _ _ _ _ _ (missing_fields_obj m st)), Hv. cbn. done.
Qed.

(** ** The scenario of the specification *)

Example demo_first_two_creates :
  (serve (create_event demo) st0).1 = (JsonEvent (demo_event "1"), 201)
  ∧ (serve (create_event demo) (after_creates 1)).1
    = (JsonEvent (demo_event "2"), 201).
Proof. split; vm_compute; reflexivity. Qed.

Example demo_get_delete_get :
  (serve (get_event "1") (after_creates 2)).1 = (JsonEvent (demo_event "1"), 200)
  ∧ (serve (delete_event "1") (after_creates 2)).1 = (NoBody, 204)
  ∧ (serve (get_event "1") (serve (delete_event "1") (after_creates 2)).2).1
    = (JsonError "Event not found", 404).
Proof. repeat split; vm_compute; reflexivity. Qed.

(** ** Claim C1: the id of a create without id *)


(** When the id that is greatest as a string is the numeral of [n], the
    next id is the numeral of [n + 1]. *)
Lemma assigned_id_after_numeral m d n :
  truthy (default JNull (m !! "id")) = false →
  max_key d = Some (py_str n) →
  assigned_id m d = JStr (py_str (n + 1)).
Proof.
  intros Hid Hmax. unfold assigned_id, current_max_id.
  by rewrite Hid, Hmax, int_of_str_py_str.
Qed.

(** On the empty store the next id is "1". *)
Lemma assigned_id_empty m :
  truthy (default JNull (m !! "id")) = false → assigned_id m ∅ = JStr "1".
Proof. intros Hid. unfold assigned_id. by rewrite Hid. Qed.

(** C1. After ten creates of the demo payload on an empty store the ids are
    "1" to "10"; the greatest numeric id is 10, so the rule asks for "11".
    The scan returns "9", the greatest id as a string, the eleventh create
    proposes "10", and it is answered 409 with nothing stored. *)
Theorem create_event_eleventh_conflicts :
  elements (dom (docs (after_creates 10)))
    ≡ₚ ["1"; "2"; "3"; "4"; "5"; "6"; "7"; "8"; "9"; "10"]
  ∧ max_numeric_id (docs (after_creates 10)) = Some 10
  ∧ spec_next_id (docs (after_creates 10)) = "11"
  ∧ max_key (docs (after_creates 10)) = Some "9"
  ∧ assigned_id demo_fields (docs (after_creates 10)) = JStr "10"
  ∧ (serve (create_event demo) (after_creates 10)).1
    = (JsonError "Event with this ID already exists", 409)
  ∧ store_of (serve (create_event demo) (after_creates 10))
    = docs (after_creates 10).
Proof.
  split.
  - apply (bool_decide_unpack _). vm_compute. reflexivity.
  - repeat split; vm_compute; reflexivity.
Qed.

(** ** Claim C7: update and the non-empty fields *)

(** C7. On the store that holds the demo event under "1", whose fields are
    all non-empty, the update [{"name": ""}] is answered 200 and the store
    then holds an event with an empty name. *)
Theorem update_event_stores_empty_name :
  events_ok (docs (after_creates 1))
  ∧ (serve (update_event "1" (JObj {[ "name" := JStr "" ]})) (after_creates 1)).1
    = (JsonEvent (mkEvent (JStr "1") (JStr "") (JStr "2024-01-01") (JStr "d")),
       200)
  ∧ store_of (serve (update_event "1" (JObj {[ "name" := JStr "" ]}))
                    (after_creates 1)) !! "1"
    = Some (mkEvent (JStr "1") (JStr "") (JStr "2024-01-01") (JStr "d"))
  ∧ ¬ events_ok (store_of (serve (update_event "1" (JObj {[ "name" := JStr "" ]}))
                                 (after_creates 1))).
Proof.
  split; [|split; [|split]].
  - apply create_event_events_ok. apply map_Forall_empty.
  - vm_compute. reflexivity.
  - vm_compute. reflexivity.
  - intros H.
    specialize (H "1" (mkEvent (JStr "1") (JStr "") (JStr "2024-01-01") (JStr "d"))).
    cbv beta in H. discriminate H. vm_compute. reflexivity.
Qed.

(** ** The theorems at work on the scenario *)

Lemma store_ok_after_creates n : store_ok (docs (after_creates n)).
Proof.
  induction n as [|n IH]; [apply store_ok_empty|].
  apply (create_event_store_ok demo (after_creates n) IH).
Qed.

(** C3 at a payload whose date is the empty string. *)
Lemma create_event_missing_field_400_witness :
  missing_or_empty {[ "name" := JStr "Demo"; "date" := JStr "" ]} "date"
  ∧ serve (create_event (JObj {[ "name" := JStr "Demo"; "date" := JStr "" ]}))
          st0
    = ((JsonError "Missing required fields: name, date, description", 400), st0).
Proof.
  assert (H : missing_or_empty {[ "name" := JStr "Demo"; "date" := JStr "" ]}
                               "date") by (vm_compute; reflexivity).
  split; [exact H|].
  apply (create_event_missing_field_400 _ "date" st0);
    [right; left; reflexivity | exact H].
Defined.

(** C4 at a second create that asks for the id "1" of the first. *)
Lemma create_event_existing_id_409_witness :
  (serve (create_event (JObj (<["id" := JStr "1"]> demo_fields)))
         (after_creates 1)).1
    = (JsonError "Event with this ID already exists", 409)
  ∧ store_of (serve (create_event (JObj (<["id" := JStr "1"]> demo_fields)))
                    (after_creates 1)) !! "1"
    = Some (demo_event "1").
Proof.
  destruct (create_event_existing_id_409
              (<["id" := JStr "1"]> demo_fields) "1" (demo_event "1")
              (after_creates 1))
    as (Hr & _ & Hs).
  - apply (store_ok_after_creates 1).
  - vm_compute; reflexivity.
  - vm_compute; reflexivity.
  - split; [exact Hr | exact Hs].
Defined.

(** C5 at the update [{"name": "X"}] of the demo event: only the name
    changes. *)
Lemma update_event_merges_witness :
  ∃ e',
    (serve (update_event "1" (JObj {[ "name" := JStr "X" ]}))
           (after_creates 1)).1 = (JsonEvent e', 200)
    ∧ ev_id e' = JStr "1"
    ∧ ev_name e' = JStr "X"
    ∧ ev_date e' = JStr "2024-01-01"
    ∧ ev_description e' = JStr "d".
Proof.
  destruct (update_event_merges "1" {[ "name" := JStr "X" ]} (demo_event "1")
              (after_creates 1))
    as (e' & Hr & _ & Hi & Hn & Hd & Hs & _).
  - apply (store_ok_after_creates 1).
  - vm_compute; reflexivity.
  - vm_compute; reflexivity.
  - exists e'. repeat split; assumption.
Defined.

(** C6 on the empty store. *)
Lemma absent_id_404_witness :
  (serve (get_event "1") st0).1 = (JsonError "Event not found", 404)
  ∧ (serve (update_event "1" demo) st0).1 = (JsonError "Event not found", 404)
  ∧ (serve (delete_event "1") st0).1 = (JsonError "Event not found", 404).
Proof.
  destruct (absent_id_404 "1" demo st0) as (Hg & Hu & Hd & _).
  - vm_compute; reflexivity.
  - vm_compute; reflexivity.
  - repeat split; assumption.
Defined.

(** C8 at the delete of the demo event. *)
Lemma delete_then_get_404_witness :
  (serve (get_event "1") (serve (delete_event "1") (after_creates 1)).2).1
    = (JsonError "Event not found", 404)
  ∧ (serve (delete_event "1") (serve (delete_event "1") (after_creates 1)).2).1
    = (JsonError "Event not found", 404).
Proof.
  apply (delete_then_get_404 "1" (after_creates 1)).
  vm_compute; reflexivity.
Defined.

(** C9 at the first create of the demo payload. *)
Lemma create_then_get_roundtrip_witness :
  ∃ k, ev_id (demo_event "1") = JStr k
     ∧ (serve (get_event k) (serve (create_event demo) st0).2).1
       = (JsonEvent (demo_event "1"), 200).
Proof.
  apply (create_then_get_roundtrip demo st0 (demo_event "1")).
  vm_compute; reflexivity.
Defined.


(** * Further properties of the views *)

(** ** What a create and an update can do to the store *)

(** A create either leaves the documents alone and is not answered 201, or
    it files one new record under an id that was free. *)
Lemma create_event_cases data st :
  ((serve (create_event data) st).1.2 ≠ 201
   ∧ store_of (serve (create_event data) st) = docs st)
  ∨ ∃ m k,
      data = JObj m ∧ valid_payload m = true
      ∧ assigned_id m (docs st) = JStr k ∧ docs st !! k = None
      ∧ serve (create_event data) st
        = ((JsonEvent (event_of_payload m (docs st)), 201),
           mkState (<[k := event_of_payload m (docs st)]> (docs st))
                   (calls (after_scan m st)
                    ++ [CreateItem (event_of_payload m (docs st))])).
Proof.
  destruct data as [|b|n|s|l|m];
    try (left; unfold store_of, serve; not_an_object; done).
  unfold store_of, serve. destruct (valid_payload m) eqn:Hv.
  - rewrite create_event_valid by done. cbv zeta.
    destruct (assigned_id m (docs st)) as [| | |k| |] eqn:Ea;
      try (left; unfold after_scan; destruct (truthy _); cbn; done).
    destruct (docs st !! k) eqn:Ek.
    + left. unfold after_scan; destruct (truthy _); cbn; done.
    + right. exists m, k. done.
  - left. unfold create_event.
    rewrite (bind_ok _ _ _ _ _ (missing_fields_obj m st)), Hv. cbn. done.
Qed.

(** An update either leaves the documents alone and is not answered 200, or
    it replaces the record of the id it read by the merged record. *)
Lemma update_event_cases event_id data st :
  ((serve (update_event event_id data) st).1.2 ≠ 200
   ∧ store_of (serve (update_event event_id data) st) = docs st)
  ∨ ∃ m e k,
      data = JObj m ∧ truthy data = true
      ∧ docs st !! event_id = Some e ∧ ev_id e = JStr k
      ∧ is_Some (docs st !! k)
      ∧ (serve (update_event event_id data) st).1 = (JsonEvent (merged m e), 200)
      ∧ store_of (serve (update_event event_id data) st)
        = <[k := merged m e]> (docs st).
Proof.
  unfold store_of, serve.
  destruct (truthy data) eqn:Ht.
  2:{ left. unfold update_event. rewrite Ht. cbn. done. }
  destruct (docs st !! event_id) as [e|] eqn:He.
  2:{ left. rewrite update_event_absent by done. cbn. done. }
  destruct data as [|b|n|s|l|m];
    try (left; unfold update_event, container.read_item; rewrite Ht; unfold_m;
         cbn [negb]; rewrite He; cbn; done).
  unfold update_event, container.read_item, container.replace_item,
    dict_get_default.
  rewrite Ht. unfold_m. cbn [negb]. rewrite He.
  cbn [ev_id record docs calls].
  destruct (ev_id e) as [| | |k| |] eqn:Hid; try (left; cbn; done).
  rewrite String.eqb_refl.
  destruct (docs st !! k) as [e0|] eqn:Hk; [|left; cbn; done].
  right. exists m, e, k. unfold merged. rewrite Hid. cbn. eauto 10.
Qed.

(** ** Listing and reading *)

(** X1. [GET /events] is answered 200 with a list that holds every stored
    document and nothing else, as many entries as there are documents; on
    the empty store the list is empty.  The documents are left alone. *)
Theorem get_events_lists_the_store (st : cstate) :
  ∃ l, (serve get_events st).1 = (JsonEvents l, 200)
     ∧ length l = size (docs st)
     ∧ (∀ e, e ∈ l ↔ ∃ k, docs st !! k = Some e)
     ∧ (docs st = ∅ → l = [])
     ∧ store_of (serve get_events st) = docs st.
Proof.
  exists (map_to_list (docs st)).*2. split; [reflexivity|].
  split; [by rewrite length_fmap, length_map_to_list|].
  split; [|split; [|reflexivity]].
  - intros e. rewrite list_elem_of_fmap. split.
    + intros ([k e'] & -> & H). exists k. by apply elem_of_map_to_list.
    + intros (k & H). exists (k, e). split; [done|].
      by apply elem_of_map_to_list.
  - intros ->. by rewrite map_to_list_empty.
Qed.

(** X2. [GET /events/<id>] is answered 200 with a record exactly when the
    store holds that record under the id, 404 exactly when the store holds
    nothing under it, and it leaves the documents alone. *)
Theorem get_event_reads_the_store (event_id : string) (st : cstate) :
  (∀ e, (serve (get_event event_id) st).1 = (JsonEvent e, 200)
        ↔ docs st !! event_id = Some e)
  ∧ ((serve (get_event event_id) st).1 = (JsonError "Event not found", 404)
     ↔ docs st !! event_id = None)
  ∧ store_of (serve (get_event event_id) st) = docs st.
Proof.
  unfold store_of, serve. destruct (docs st !! event_id) as [e0|] eqn:He.
  - rewrite (get_event_found _ _ e0) by done. cbn.
    split; [|split; [|done]].
    + intros e. split; intros H; congruence.
    + split; discriminate.
  - rewrite get_event_absent by done. cbn.
    split; [|split; [|done]].
    + intros e. split; discriminate.
    + done.
Qed.

(** ** Deleting *)

Lemma delete_event_store event_id st :
  store_of (serve (delete_event event_id) st) = delete event_id (docs st).
Proof.
  unfold store_of, serve. destruct (docs st !! event_id) as [e|] eqn:He.
  - by rewrite (delete_event_found _ _ e).
  - rewrite delete_event_absent by done. cbn. by rewrite delete_id.
Qed.

(** X3. [DELETE /events/<id>] leaves the store without that id and with
    every other document as it was, whatever the answer; the answer is 204
    when the id was stored and 404 when it was not. *)
Theorem delete_event_removes_exactly (event_id : string) (st : cstate) :
  store_of (serve (delete_event event_id) st) = delete event_id (docs st)
  ∧ (serve (delete_event event_id) st).1
    = (if bool_decide (is_Some (docs st !! event_id))
       then (NoBody, 204)
       else (JsonError "Event not found", 404)).
Proof.
  split; [apply delete_event_store|].
  unfold serve. destruct (docs st !! event_id) as [e|] eqn:He.
  - rewrite (delete_event_found _ _ e) by done.
    by rewrite bool_decide_eq_true_2 by eauto.
  - rewrite delete_event_absent by done.
    by rewrite bool_decide_eq_false_2 by (by intros [? ?]).
Qed.

(** ** Updating *)

(** X4. An update, whatever its id and body and whatever it is answered,
    neither adds nor removes a document: the set of stored ids is the
    same afterwards. *)
Theorem update_event_keeps_the_ids (event_id : string) (data : json)
    (st : cstate) :
  dom (store_of (serve (update_event event_id data) st)) = dom (docs st).
Proof.
  destruct (update_event_cases event_id data st)
    as [[_ ->]|(m & e & k & _ & _ & _ & _ & Hk & _ & ->)]; [done|].
  apply dom_insert_lookup_L. done.
Qed.

(** X5. On a store where every document is filed under its own id, an
    update that is answered 200 can be repeated: the second one is
    answered with the same record and the documents are the same as after
    the first. *)
Theorem update_event_twice (event_id : string) (data : json) (st : cstate)
    (e' : Event) :
  store_ok (docs st) →
  (serve (update_event event_id data) st).1 = (JsonEvent e', 200) →
  (serve (update_event event_id data)
         (serve (update_event event_id data) st).2).1 = (JsonEvent e', 200)
  ∧ store_of (serve (update_event event_id data)
                    (serve (update_event event_id data) st).2)
    = store_of (serve (update_event event_id data) st).
Proof.
  intros Hok Hr.
  destruct (update_event_cases event_id data st)
    as [[Hn _]|(m & e & k & -> & Ht & He & Hid & _ & _ & _)].
  { rewrite Hr in Hn. done. }
  assert (Hid' : ev_id e = JStr event_id) by (by apply Hok).
  pose proof (update_event_found event_id m st e Ht He Hid') as Hu.
  unfold store_of, serve in *. rewrite Hu in *.
  cbn [fst snd] in *. injection Hr as <-.
  rewrite (update_event_found _ _ _ (merged m e))
    by (try done; cbn [docs]; apply lookup_insert_eq).
  cbn [fst snd docs].
  assert (Hm : merged m (merged m e) = merged m e).
  { unfold merged. cbn [ev_id ev_name ev_date ev_description].
    f_equal; destruct (m !! _); reflexivity. }
  rewrite Hm, insert_insert_eq. done.
Qed.

(** X6. On a store where every document is filed under its own id, an
    update that is answered 200 with a record is followed by a get of the
    same id that is answered 200 with that record. *)
Theorem update_then_get (event_id : string) (data : json) (st : cstate)
    (e' : Event) :
  store_ok (docs st) →
  (serve (update_event event_id data) st).1 = (JsonEvent e', 200) →
  (serve (get_event event_id) (serve (update_event event_id data) st).2).1
    = (JsonEvent e', 200).
Proof.
  intros Hok Hr.
  destruct (update_event_cases event_id data st)
    as [[Hn _]|(m & e & k & -> & Ht & He & Hid & _ & _ & _)].
  { rewrite Hr in Hn. done. }
  assert (Hid' : ev_id e = JStr event_id) by (by apply Hok).
  pose proof (update_event_found event_id m st e Ht He Hid') as Hu.
  unfold serve in *. rewrite Hu in *.
  cbn [fst snd] in *. injection Hr as <-.
  erewrite get_event_found; [done|]. cbn [docs]. apply lookup_insert_eq.
Qed.

(** ** Creating *)

(** X7. A create, whatever its body and whatever it is answered, never
    changes or removes a document that is stored: the documents before
    are all among the documents after. *)
Theorem create_event_never_overwrites (data : json) (st : cstate) :
  docs st ⊆ store_of (serve (create_event data) st).
Proof.
  destruct (create_event_cases data st)
    as [[_ ->]|(m & k & _ & _ & _ & Hk & ->)]; [done|].
  unfold store_of. cbn [snd docs]. by apply insert_subseteq.
Qed.



Lemma create_event_free_id m k st :
  valid_payload m = true →
  m !! "id" = Some (JStr k) →
  k ≠ "" →
  docs st !! k = None →
  serve (create_event (JObj m)) st
    = ((JsonEvent (mkEvent (JStr k) (default JNull (m !! "name"))
                           (default JNull (m !! "date"))
                           (default JNull (m !! "description"))), 201),
       mkState (<[k := mkEvent (JStr k) (default JNull (m !! "name"))
                               (default JNull (m !! "date"))
                               (default JNull (m !! "description"))]>
                  (docs st))
               (calls st
                ++ [CreateItem (mkEvent (JStr k) (default JNull (m !! "name"))
                                        (default JNull (m !! "date"))
                                        (default JNull (m !! "description")))])).
Proof.
  intros Hv Hid Hk Hfree.
  assert (Ht : truthy (JStr k) = true) by (by apply truthy_str).
  unfold serve. rewrite create_event_valid by done. cbv zeta.
  unfold event_of_payload, after_scan, assigned_id.
  rewrite Hid. cbn [from_option id]. rewrite Ht, Hfree. reflexivity.
Qed.


(** X11. A create whose body is not an object never reaches the container:
    a falsy body ([null], [false], [0], the empty string or list) is
    answered 400, any other is answered 500 "Internal server error", and
    the container is exactly as before, with no call made on it. *)
Theorem create_event_body_not_an_object (data : json) (st : cstate) :
  (∀ m, data ≠ JObj m) →
  serve (create_event data) st =
    (if truthy data
     then (JsonError "Internal server error", 500)
     else (JsonError "Missing required fields: name, date, description", 400),
     st).
Proof. apply create_event_not_an_object. Qed.

(** X12. An update of a stored id whose body is truthy and not an object
    (a non-empty list or string, a number, [true]) is answered 500
    "Internal server error" and the documents are left alone. *)
Theorem update_event_body_not_an_object (event_id : string) (data : json)
    (e : Event) (st : cstate) :
  (∀ m, data ≠ JObj m) →
  truthy data = true →
  docs st !! event_id = Some e →
  (serve (update_event event_id data) st).1
    = (JsonError "Internal server error", 500)
  ∧ store_of (serve (update_event event_id data) st) = docs st.
Proof.
  intros Hd Ht He. unfold store_of, serve.
  destruct data as [|b|n|s|l|m];
    try (unfold update_event, container.read_item; rewrite Ht; unfold_m;
         cbn [negb]; rewrite He; cbn; done).
  by destruct (Hd m).
Qed.

(** ** Every request *)

(** X13. A request that is answered 400 made no call on the container and
    changed nothing in it: validation comes before any store operation, in
    create and in update alike. *)
Theorem rejected_request_touches_nothing (r : request) (st : cstate) :
  (handle r st).1.2 = 400 → (handle r st).2 = st.
Proof.
  unfold handle, serve. destruct r as [data| |event_id|event_id data|event_id];
    cbn [route].
  - destruct data as [|b|n|s|l|m]; try (not_an_object; done).
    destruct (valid_payload m) eqn:Hv.
    + rewrite create_event_valid by done. cbv zeta.
      destruct (assigned_id m (docs st)) as [| | |k| |]; try (cbn; done).
      destruct (docs st !! k); cbn; done.
    + unfold create_event.
      rewrite (bind_ok _ _ _ _ _ (missing_fields_obj m st)), Hv. cbn. done.
  - cbn. done.
  - destruct (docs st !! event_id) as [e|] eqn:He.
    + rewrite (get_event_found _ _ e) by done. cbn. done.
    + rewrite get_event_absent by done. cbn. done.
  - destruct (truthy data) eqn:Ht.
    2:{ unfold update_event. rewrite Ht. cbn. done. }
    intros H. exfalso. revert H.
    destruct (docs st !! event_id) as [e|] eqn:He.
    2:{ rewrite update_event_absent by done. cbn. done. }
    destruct data as [|b|n|s|l|m];
      try (unfold update_event, container.read_item; rewrite Ht; unfold_m;
           cbn [negb]; rewrite He; cbn; done).
    unfold update_event, container.read_item, container.replace_item,
      dict_get_default.
    rewrite Ht. unfold_m. cbn [negb]. rewrite He.
    cbn [ev_id record docs calls].
    destruct (ev_id e) as [| | |k| |]; try (cbn; done).
    rewrite String.eqb_refl. destruct (docs st !! k); cbn; done.
  - destruct (docs st !! event_id) as [e|] eqn:He.
    + rewrite (delete_event_found _ _ e) by done. cbn. done.
    + rewrite delete_event_absent by done. cbn. done.
Qed.

(** X14. A request that is not answered with a 2xx status leaves the
    documents as they were: only a 201 create, a 200 update and a 204 delete
    change the store. *)
Theorem failed_request_keeps_the_store (r : request) (st : cstate) :
  is_success (handle r st).1 = false →
  store_of (handle r st) = docs st.
Proof.
  unfold handle. destruct r as [data| |event_id|event_id data|event_id];
    cbn [route].
  - destruct (create_event_cases data st)
      as [[_ ->]|(m & k & _ & _ & _ & _ & ->)]; [done|]. cbn. done.
  - done.
  - intros _. apply get_event_store.
  - destruct (update_event_cases event_id data st)
      as [[_ ->]|(m & e & k & _ & _ & _ & _ & _ & -> & _)]; [done|].
    cbn. done.
  - unfold store_of, serve. destruct (docs st !! event_id) as [e|] eqn:He.
    + rewrite (delete_event_found _ _ e) by done. cbn. done.
    + rewrite delete_event_absent by done. cbn. done.
Qed.

Lemma handle_store_ok r st :
  store_ok (docs st) → store_ok (store_of (handle r st)).
Proof.
  intros Hok. unfold handle.
  destruct r as [data| |event_id|event_id data|event_id]; cbn [route].
  - by apply create_event_store_ok.
  - done.
  - by rewrite get_event_store.
  - by apply update_event_store_ok.
  - by apply delete_event_store_ok.
Qed.

Lemma run_snoc rs r st : run (rs ++ [r]) st = (handle r (run rs st)).2.
Proof. unfold run. by rewrite foldl_app. Qed.

(** X15. Whatever requests are served, in whatever order, starting from the
    empty container: every stored document carries the id it is filed
    under, as a string, and no document has the empty id. *)
Theorem run_store_ok (rs : list request) :
  docs (run rs st0) !! "" = None
  ∧ ∀ k e, docs (run rs st0) !! k = Some e → ev_id e = JStr k.
Proof.
  change (store_ok (docs (run rs st0))).
  induction rs as [|r rs IH] using rev_ind; [apply store_ok_empty|].
  rewrite run_snoc. by apply handle_store_ok.
Qed.

(** ** Creating and deleting *)

(** X16. A create that is answered 201 with a record can be undone: the
    delete of the record's id is answered 204 and the documents are again
    what they were before the create. *)
Theorem create_then_delete (data : json) (st : cstate) (e : Event)
    (k : string) :
  (serve (create_event data) st).1 = (JsonEvent e, 201) →
  ev_id e = JStr k →
  (serve (delete_event k) (serve (create_event data) st).2).1 = (NoBody, 204)
  ∧ store_of (serve (delete_event k) (serve (create_event data) st).2)
    = docs st.
Proof.
  intros Hr Hid.
  destruct (create_event_cases data st)
    as [[Hn _]|(m & k' & -> & Hv & Ha & Hk & Hs)].
  { rewrite Hr in Hn. done. }
  rewrite Hs in *. cbn [fst snd] in *. injection Hr as <-.
  unfold event_of_payload in Hid. cbn [ev_id] in Hid.
  rewrite Ha in Hid. injection Hid as <-.
  unfold store_of, serve.
  erewrite delete_event_found by (cbn [docs]; apply lookup_insert_eq).
  cbn [fst snd docs]. split; [done|].
  rewrite delete_insert_eq. by apply delete_id.
Qed.

(** X17. After a delete that is answered 204, the id is free again: a
    create that names it, on a payload that passes validation, is answered
    201 with that id. *)
Theorem delete_then_create (m : gmap string json) (k : string) (st : cstate) :
  valid_payload m = true →
  m !! "id" = Some (JStr k) →
  k ≠ "" →
  (serve (delete_event k) st).1 = (NoBody, 204) →
  ∃ e, (serve (create_event (JObj m)) (serve (delete_event k) st).2).1
       = (JsonEvent e, 201)
     ∧ ev_id e = JStr k
     ∧ store_of (serve (create_event (JObj m)) (serve (delete_event k) st).2)
         !! k = Some e.
Proof.
  intros Hv Hid Hk Hd.
  assert (Hfree : docs (serve (delete_event k) st).2 !! k = None).
  { pose proof (delete_event_store k st) as Hs.
    unfold store_of in Hs. rewrite Hs. apply lookup_delete_eq. }
  rewrite (create_event_free_id m k _ Hv Hid Hk Hfree).
  unfold store_of. cbn [fst snd docs].
  eexists. split; [reflexivity|]. split; [reflexivity|].
  apply lookup_insert_eq.
Qed.

(** ** Non-empty fields *)

Lemma handle_events_ok r st :
  request_fields_ok r →
  events_ok (docs st) →
  events_ok (store_of (handle r st)).
Proof.
  intros Hp Hok. unfold handle.
  destruct r as [data| |event_id|event_id data|event_id]; cbn [route].
  - by apply create_event_events_ok.
  - done.
  - by rewrite get_event_store.
  - destruct (update_event_cases event_id data st)
      as [[_ ->]|(m & e & k & -> & _ & He & _ & _ & _ & ->)]; [done|].
    apply map_Forall_insert_2; [|done]. cbn in Hp.
    pose proof (Hok _ _ He) as Hev. cbv beta in Hev.
    unfold event_ok in *. apply andb_true_iff in Hev as [Hev Hs].
    apply andb_true_iff in Hev as [Hn Hd].
    unfold merged. cbn [ev_name ev_date ev_description].
    rewrite !andb_true_iff. repeat split.
    + destruct (m !! "name") eqn:E; [|done]. eapply Hp; [|done]. auto.
    + destruct (m !! "date") eqn:E; [|done]. eapply Hp; [|done]. auto.
    + destruct (m !! "description") eqn:E; [|done]. eapply Hp; [|done]. auto.
  - rewrite delete_event_store. by apply map_Forall_delete.
Qed.

(** X18. Starting from the empty container, as long as no update gives an
    empty value to [name], [date] or [description], every stored event has
    the three fields non-empty, whatever else the requests are: creates
    check what they store, and reads and deletes store nothing. *)
Theorem run_events_ok (rs : list request) :
  Forall request_fields_ok rs →
  events_ok (docs (run rs st0)).
Proof.
  induction rs as [|r rs IH] using rev_ind; intros Hrs.
  - apply map_Forall_empty.
  - apply Forall_app in Hrs as [Hrs Hr]. rewrite run_snoc.
    apply handle_events_ok; [by inversion Hr|by apply IH].
Qed.

(** ** The further properties at work on the scenario *)

(** X5 at the update [{"name": "X"}] of the demo event, twice. *)
Lemma update_event_twice_witness :
  (serve (update_event "1" (JObj {[ "name" := JStr "X" ]}))
         (serve (update_event "1" (JObj {[ "name" := JStr "X" ]}))
                (after_creates 1)).2).1
    = (JsonEvent (mkEvent (JStr "1") (JStr "X") (JStr "2024-01-01") (JStr "d")),
       200).
Proof.
  apply (update_event_twice "1" (JObj {[ "name" := JStr "X" ]})
           (after_creates 1)
           (mkEvent (JStr "1") (JStr "X") (JStr "2024-01-01") (JStr "d"))).
  - apply (store_ok_after_creates 1).
  - vm_compute; reflexivity.
Defined.

(** X6 at the same update, followed by a get. *)
Lemma update_then_get_witness :
  (serve (get_event "1")
         (serve (update_event "1" (JObj {[ "name" := JStr "X" ]}))
                (after_creates 1)).2).1
    = (JsonEvent (mkEvent (JStr "1") (JStr "X") (JStr "2024-01-01") (JStr "d")),
       200).
Proof.
  apply (update_then_get "1" (JObj {[ "name" := JStr "X" ]}) (after_creates 1)).
  - apply (store_ok_after_creates 1).
  - vm_compute; reflexivity.
Defined.



(** X11 at the body [[1]]. *)
Lemma create_event_body_not_an_object_witness :
  serve (create_event (JArr [JNum 1])) st0
    = ((JsonError "Internal server error", 500), st0).
Proof.
  apply (create_event_body_not_an_object (JArr [JNum 1]) st0).
  intros m; discriminate.
Defined.

(** X12 at the body [[1]] for the demo event. *)
Lemma update_event_body_not_an_object_witness :
  (serve (update_event "1" (JArr [JNum 1])) (after_creates 1)).1
    = (JsonError "Internal server error", 500)
  ∧ store_of (serve (update_event "1" (JArr [JNum 1])) (after_creates 1))
    = docs (after_creates 1).
Proof.
  apply (update_event_body_not_an_object "1" (JArr [JNum 1]) (demo_event "1")
           (after_creates 1)).
  - intros m; discriminate.
  - vm_compute; reflexivity.
  - vm_compute; reflexivity.
Defined.

(** X13 at the update with the empty object. *)
Lemma rejected_request_touches_nothing_witness :
  (handle (PUT_event "1" (JObj ∅)) (after_creates 1)).2 = after_creates 1.
Proof.
  apply (rejected_request_touches_nothing (PUT_event "1" (JObj ∅))
           (after_creates 1)).
  vm_compute; reflexivity.
Defined.

(** X14 at a create that asks for the id of the demo event. *)
Lemma failed_request_keeps_the_store_witness :
  store_of (handle (POST_events (JObj (<["id" := JStr "1"]> demo_fields)))
                   (after_creates 1))
    = docs (after_creates 1).
Proof.
  apply (failed_request_keeps_the_store
           (POST_events (JObj (<["id" := JStr "1"]> demo_fields)))
           (after_creates 1)).
  vm_compute; reflexivity.
Defined.

(** X16 at the first create of the demo payload. *)
Lemma create_then_delete_witness :
  (serve (delete_event "1") (serve (create_event demo) st0).2).1 = (NoBody, 204)
  ∧ store_of (serve (delete_event "1") (serve (create_event demo) st0).2)
    = docs st0.
Proof.
  apply (create_then_delete demo st0 (demo_event "1") "1").
  - vm_compute; reflexivity.
  - reflexivity.
Defined.

(** X17 at the demo event: deleted, then created again under its id. *)
Lemma delete_then_create_witness :
  ∃ e, (serve (create_event (JObj (<["id" := JStr "1"]> demo_fields)))
              (serve (delete_event "1") (after_creates 1)).2).1
       = (JsonEvent e, 201)
     ∧ ev_id e = JStr "1".
Proof.
  destruct (delete_then_create (<["id" := JStr "1"]> demo_fields) "1"
              (after_creates 1))
    as (e & Hr & Hi & _).
  - vm_compute; reflexivity.
  - vm_compute; reflexivity.
  - discriminate.
  - vm_compute; reflexivity.
  - exists e. split; [exact Hr | exact Hi].
Defined.

(** X18 at a create, an update of the name, a listing and a delete. *)
Lemma run_events_ok_witness :
  events_ok (docs (run [POST_events demo;
                        PUT_event "1" (JObj {[ "name" := JStr "X" ]});
                        GET_events;
                        DELETE_event "2"] st0)).
Proof.
  apply (run_events_ok [POST_events demo;
                        PUT_event "1" (JObj {[ "name" := JStr "X" ]});
                        GET_events;
                        DELETE_event "2"]).
  repeat constructor.
  intros k v [->|[->| ->]]; vm_compute; intros [= <-]; reflexivity.
Defined.
